(** * Blob storage abstraction layer (lib/blobStorage.ts)

    A shallow embedding of the path model ([BlobPath]), of the in-memory
    backend ([InMemoryBlobStorage]) and of the parts of the cloud backend
    ([AzureBlobStorage]) that are computed on the client side.

    Conventions of the embedding:
    - a JavaScript string is a [string]; [new Buffer(s)] and
      [buffer.toString()] are the UTF-8 conversions of the host
      ([Buffer_from], [Buffer_toString]);
    - a [StringMap<T>] (a plain object used as a dictionary) is a
      [gmap string T] over its own properties. The properties that a plain
      object inherits from [Object.prototype] are not part of it: what is
      proved about a name that is absent from a map is proved for the
      names for which [JS.inherited] is false;
    - a [Promise<T>] that has settled is a value of [Promise T]: either
      [resolve v] or [reject e]; [.then] and [.catch] are [then_] and
      [catch_];
    - an operation of a backend is a function from the backend's state to a
      settled promise and the new state. *)

From Stdlib Require Import ZArith Lia Ascii.
From stdpp Require Import gmap strings.

Local Open Scope Z_scope.

(** ** JavaScript string primitives *)

Module JS.

(** [String.prototype.indexOf(searchString)], scanning from [position]:
    the index of the first occurrence, or [-1]. *)
Fixpoint indexOf_from (s searchString : string) (position : Z) : Z :=
  if String.prefix searchString s then position
  else match s with
       | EmptyString => -1
       | String _ s' => indexOf_from s' searchString (position + 1)
       end.

Definition indexOf (s searchString : string) : Z :=
  indexOf_from s searchString 0.

(** Clamping of an index argument of [substring] to [0 .. length]. *)
Definition clamp (len i : Z) : Z := Z.max 0 (Z.min i len).

(** [String.prototype.substring(indexStart, indexEnd)]: both indices are
    clamped to [0 .. length], an omitted [indexEnd] is [length], and the
    two are swapped when [indexStart > indexEnd]. *)
Definition substring (s : string) (indexStart : Z) (indexEnd : option Z) : string :=
  let len := Z.of_nat (String.length s) in
  let a := clamp len indexStart in
  let b := clamp len (default len indexEnd) in
  let lo := Z.min a b in
  let hi := Z.max a b in
  String.substring (Z.to_nat lo) (Z.to_nat (hi - lo)) s.

(** Truthiness of a string: only the empty string is falsy. *)
Definition truthy (s : string) : bool := negb (String.eqb s "").

(** [(o && o.field) || fallback] for an optional string field of an
    optional options object. *)
Definition or_default (v : option string) (fallback : string) : string :=
  match v with
  | Some s => if truthy s then s else fallback
  | None => fallback
  end.

(** ASCII fragment of [String.prototype.toLowerCase], used to run the
    model on concrete names. *)
Definition ascii_toLowerCase (c : Ascii.ascii) : Ascii.ascii :=
  let n := Ascii.nat_of_ascii c in
  if (Nat.leb 65 n && Nat.leb n 90)%bool then Ascii.ascii_of_nat (n + 32) else c.

Fixpoint toLowerCase_ascii (s : string) : string :=
  match s with
  | EmptyString => EmptyString
  | String c s' => String (ascii_toLowerCase c) (toLowerCase_ascii s')
  end.

(** UTF-8 conversions for running the model. A string stands for a
    JavaScript string by its generalised UTF-8 bytes, in which a lone
    surrogate is the three bytes ED, A0..BF, 80..BF. *)
Definition replacement : list Byte.byte := [Byte.xef; Byte.xbf; Byte.xbd].

Definition isLoneSurrogate (b1 b2 b3 : Byte.byte) : bool :=
  (Byte.to_N b1 =? 237)%N
  && (160 <=? Byte.to_N b2)%N && (Byte.to_N b2 <=? 191)%N
  && (128 <=? Byte.to_N b3)%N && (Byte.to_N b3 <=? 191)%N.

(** Encoding: every lone surrogate becomes U+FFFD. *)
Fixpoint encodeUTF8_bytes (l : list Byte.byte) : list Byte.byte :=
  match l with
  | [] => []
  | b1 :: l1 =>
      match l1 with
      | b2 :: b3 :: l3 =>
          if isLoneSurrogate b1 b2 b3
          then replacement ++ encodeUTF8_bytes l3
          else b1 :: encodeUTF8_bytes l1
      | _ => b1 :: encodeUTF8_bytes l1
      end
  end.

Definition encodeUTF8 (s : string) : list Byte.byte :=
  encodeUTF8_bytes (String.list_byte_of_string s).

(** Decoding with replacement: the state after a lead byte holds the bytes
    read so far, the number of continuation bytes still needed and the
    range allowed for the next one. *)
Record Utf8State := {
  pending : list Byte.byte;
  needed : nat;
  lower : N;
  upper : N
}.

Definition utf8_initial : Utf8State :=
  {| pending := []; needed := 0; lower := 128; upper := 191 |}.

Definition utf8_start (b : Byte.byte) : list Byte.byte * Utf8State :=
  let n := Byte.to_N b in
  if (n <=? 127)%N then ([b], utf8_initial)
  else if (194 <=? n)%N && (n <=? 223)%N then
    ([], {| pending := [b]; needed := 1; lower := 128; upper := 191 |})
  else if (224 <=? n)%N && (n <=? 239)%N then
    ([], {| pending := [b]; needed := 2;
            lower := if (n =? 224)%N then 160%N else 128%N;
            upper := if (n =? 237)%N then 159%N else 191%N |})
  else if (240 <=? n)%N && (n <=? 244)%N then
    ([], {| pending := [b]; needed := 3;
            lower := if (n =? 240)%N then 144%N else 128%N;
            upper := if (n =? 244)%N then 143%N else 191%N |})
  else (replacement, utf8_initial).

Definition utf8_step (st : Utf8State) (b : Byte.byte) : list Byte.byte * Utf8State :=
  match needed st with
  | O => utf8_start b
  | Datatypes.S k =>
      if (lower st <=? Byte.to_N b)%N && (Byte.to_N b <=? upper st)%N then
        match k with
        | O => (pending st ++ [b], utf8_initial)
        | Datatypes.S _ =>
            ([], {| pending := pending st ++ [b]; needed := k; lower := 128; upper := 191 |})
        end
      else
        let (out, st') := utf8_start b in (replacement ++ out, st')
  end.

Fixpoint decodeUTF8_from (st : Utf8State) (bytes : list Byte.byte) : list Byte.byte :=
  match bytes with
  | [] => match needed st with O => [] | Datatypes.S _ => replacement end
  | b :: rest =>
      let (out, st') := utf8_step st b in out ++ decodeUTF8_from st' rest
  end.

Definition decodeUTF8 (bytes : list Byte.byte) : string :=
  String.string_of_list_byte (decodeUTF8_from utf8_initial bytes).





End JS.

(** ** Errors, buffers and the host *)

(** An [Error] with its message and, for the errors of the storage SDK,
    the HTTP status code. *)
Record Error := mkError {
  message : string;
  statusCode : option Z
}.

Definition newError (msg : string) : Error :=
  {| message := msg; statusCode := None |}.

Abbreviation Buffer := (list Byte.byte).

(** The services of the host that the storage code calls: the built-in
    [String.prototype.toLowerCase], [fs.readFileSync], which returns the
    bytes of a file or throws, and the UTF-8 conversions [new Buffer(s)]
    and [buffer.toString()]. *)
Class Host := {
  toLowerCase : string -> string;
  Buffer_from : string -> Buffer;
  Buffer_toString : Buffer -> string;
  readFileSync : string -> Error + Buffer
}.

(** ** Settled promises *)

Inductive Promise (A : Type) : Type :=
| resolve (value : A)
| reject (error : Error).
Arguments resolve {A} value.
Arguments reject {A} error.

(** An asynchronous operation on a store of type [S]: the promise it
    settles to and the store it leaves. *)
Definition Op (S A : Type) : Type := S -> Promise A * S.

Definition Promise_resolve {S A} (value : A) : Op S A :=
  fun this => (resolve value, this).

Definition Promise_reject {S A} (error : Error) : Op S A :=
  fun this => (reject error, this).

(** A promise that is already settled, returned from a callback. *)
Definition settled {S A} (p : Promise A) : Op S A :=
  fun this => (p, this).

(** [p.then(onFulfilled)] *)
Definition then_ {S A B} (p : Op S A) (onFulfilled : A -> Op S B) : Op S B :=
  fun this =>
    match p this with
    | (resolve value, this') => onFulfilled value this'
    | (reject error, this') => (reject error, this')
    end.

(** [p.catch(onRejected)] *)
Definition catch_ {S A} (p : Op S A) (onRejected : Error -> Op S A) : Op S A :=
  fun this =>
    match p this with
    | (resolve value, this') => (resolve value, this')
    | (reject error, this') => onRejected error this'
    end.

(** The implicit widening of [Promise<T>] to [Promise<T | undefined>]. *)
Definition widen {S A} (p : Op S A) : Op S (option A) :=
  then_ p (fun value => Promise_resolve (Some value)).

Definition resolveIfErrorStatusCodeEquals {A} (error : Error) (code : Z) (resolvedValue : A) : Promise A :=
  match statusCode error with
  | Some c => if Z.eqb c code then resolve resolvedValue else reject error
  | None => reject error
  end.

Definition resolveIfErrorMessageContains {A} (error : Error) (substring : string) (resolvedValue : A) : Promise A :=
  if negb (Z.eqb (JS.indexOf (message error) substring) (-1))
  then resolve resolvedValue
  else reject error.

(** ** Path model *)

Module BlobPath.

Record t := new {
  containerName : string;
  blobName : string
}.

Definition toString (this : t) : string :=
  containerName this +:+ "/" +:+ blobName this.

(** The argument of [parse] has type [string | BlobPath]. *)
Inductive arg :=
| ofString (blobPath : string)
| ofBlobPath (blobPath : t).

Definition parse (blobPath : arg) : t :=
  match blobPath with
  | ofBlobPath p => p
  | ofString s =>
      let firstSlashIndex := JS.indexOf s "/" in
      new (JS.substring s 0 (Some firstSlashIndex))
          (JS.substring s (firstSlashIndex + 1) None)
  end.

End BlobPath.

(** ** Navigation handles *)

(** A handle is a reference to its storage and a name or a path; the
    storage is the backend in scope. *)
Record BlobStorageContainer := { container_name : string }.
Record BlobStoragePrefix := { prefix_path : BlobPath.t }.
Record BlobStorageBlob := { blob_path : BlobPath.t }.

(** ** Options and stored records *)

Inductive ContainerAccessPolicy := Private | Blob | Container.

Module CreateContainerOptions.
Record t := { accessPolicy : option ContainerAccessPolicy }.
End CreateContainerOptions.

Module BlobContentOptions.
Record t := { contentType : option string }.
End BlobContentOptions.

Module GetURLOptions.
Record t := { sasToken : option bool }.
End GetURLOptions.

Module InMemoryBlob.
Record t := {
  contents : Buffer;
  contentType : option string
}.
End InMemoryBlob.

Module InMemoryContainer.
Record t := {
  name : string;
  blobs : gmap string InMemoryBlob.t;
  accessPolicy : ContainerAccessPolicy
}.
End InMemoryContainer.

(** [key in object], for the keys that the object holds itself (see
    [JS.inherited] for the others). *)
Definition has {T} (key : string) (object : gmap string T) : bool :=
  bool_decide (is_Some (object !! key)).

(** [(options && options.contentType) || "application/octet-stream"] *)
Definition contentTypeOrDefault (options : option BlobContentOptions.t) : string :=
  JS.or_default (options ≫= BlobContentOptions.contentType) "application/octet-stream".

(** [(options && options.accessPolicy) || "private"] *)
Definition accessPolicyOrDefault (options : option CreateContainerOptions.t) : ContainerAccessPolicy :=
  default Private (options ≫= CreateContainerOptions.accessPolicy).

(** ** In-memory backend *)

Module InMemoryBlobStorage.

(** The field [containers] of the backend. *)
Abbreviation Containers := (gmap string InMemoryContainer.t).

(** The argument of [getInMemoryContainer] has type [string | BlobPath]. *)
Inductive containerArg :=
| ofName (containerName : string)
| ofPath (blobPath : BlobPath.t).

(** [typeof containerName === "string" ? containerName : containerName.containerName] *)
Definition nameOf (containerName : containerArg) : string :=
  match containerName with
  | ofName s => s
  | ofPath p => BlobPath.containerName p
  end.

(** Assignments through a reference to a stored container or blob update
    the entry of the store that holds the object. *)
Definition setBlobs (containerName : string) (container : InMemoryContainer.t)
    (blobs : gmap string InMemoryBlob.t) (this : Containers) : Containers :=
  <[containerName :=
      {| InMemoryContainer.name := InMemoryContainer.name container;
         InMemoryContainer.blobs := blobs;
         InMemoryContainer.accessPolicy := InMemoryContainer.accessPolicy container |}]> this.

Definition setAccessPolicy (containerName : string) (container : InMemoryContainer.t)
    (permissions : ContainerAccessPolicy) (this : Containers) : Containers :=
  <[containerName :=
      {| InMemoryContainer.name := InMemoryContainer.name container;
         InMemoryContainer.blobs := InMemoryContainer.blobs container;
         InMemoryContainer.accessPolicy := permissions |}]> this.

Section Backend.
Context `{Host}.

Definition invalidName (containerName : string) : bool :=
  negb (JS.truthy containerName)
  || negb (String.eqb containerName (toLowerCase containerName)).

Definition getInMemoryContainer (containerName : containerArg) : Op Containers InMemoryContainer.t :=
  fun this =>
    let containerName := nameOf containerName in
    if invalidName containerName then
      (reject (newError "InvalidResourceName: The specifed resource name contains invalid characters."), this)
    else
      match this !! containerName with
      | None => (reject (newError "ContainerNotFound: The specified container does not exist."), this)
      | Some container => (resolve container, this)
      end.

Definition getInMemoryBlob (blobPath : BlobPath.arg) : Op Containers InMemoryBlob.t :=
  let blobPath := BlobPath.parse blobPath in
  let blobName := BlobPath.blobName blobPath in
  then_ (getInMemoryContainer (ofName (BlobPath.containerName blobPath)))
    (fun container =>
       match InMemoryContainer.blobs container !! blobName with
       | Some blob => Promise_resolve blob
       | None => Promise_reject (newError "BlobNotFound: The specified blob does not exist.")
       end).

Definition createBlob (blobPath : BlobPath.arg) (options : option BlobContentOptions.t) : Op Containers bool :=
  let blobPath := BlobPath.parse blobPath in
  let blobName := BlobPath.blobName blobPath in
  then_ (getInMemoryContainer (ofPath blobPath))
    (fun container this =>
       if negb (has blobName (InMemoryContainer.blobs container)) then
         (resolve true,
          setBlobs (BlobPath.containerName blobPath) container
            (<[blobName := {| InMemoryBlob.contents := [];
                              InMemoryBlob.contentType := Some (contentTypeOrDefault options) |}]>
               (InMemoryContainer.blobs container)) this)
       else (resolve false, this)).

Definition blobExists (blobPath : BlobPath.arg) : Op Containers bool :=
  let blobPath := BlobPath.parse blobPath in
  let blobName := BlobPath.blobName blobPath in
  catch_
    (then_ (getInMemoryContainer (ofPath blobPath))
       (fun container => Promise_resolve (has blobName (InMemoryContainer.blobs container))))
    (fun error => settled (resolveIfErrorMessageContains error "ContainerNotFound" false)).

Definition getBlobContentsAsString (blobPath : BlobPath.arg) : Op Containers string :=
  then_ (getInMemoryBlob blobPath)
    (fun blob => Promise_resolve (Buffer_toString (InMemoryBlob.contents blob))).

Definition setBlobContentsFromString (blobPath : BlobPath.arg) (blobContents : string)
    (options : option BlobContentOptions.t) : Op Containers unit :=
  let blobPath := BlobPath.parse blobPath in
  let blobName := BlobPath.blobName blobPath in
  then_ (getInMemoryContainer (ofPath blobPath))
    (fun container this =>
       match InMemoryContainer.blobs container !! blobName with
       | None =>
           (resolve tt,
            setBlobs (BlobPath.containerName blobPath) container
              (<[blobName := {| InMemoryBlob.contents := Buffer_from blobContents;
                                InMemoryBlob.contentType := Some (contentTypeOrDefault options) |}]>
                 (InMemoryContainer.blobs container)) this)
       | Some blob =>
           let blob := {| InMemoryBlob.contents := Buffer_from blobContents;
                          InMemoryBlob.contentType := InMemoryBlob.contentType blob |} in
           let blob := {| InMemoryBlob.contents := InMemoryBlob.contents blob;
                          InMemoryBlob.contentType := Some (contentTypeOrDefault options) |} in
           (resolve tt,
            setBlobs (BlobPath.containerName blobPath) container
              (<[blobName := blob]> (InMemoryContainer.blobs container)) this)
       end).

Definition setBlobContentsFromFile (blobPath : BlobPath.arg) (filePath : string)
    (options : option BlobContentOptions.t) : Op Containers unit :=
  let blobPath := BlobPath.parse blobPath in
  let blobName := BlobPath.blobName blobPath in
  then_ (getInMemoryContainer (ofPath blobPath))
    (fun container this =>
       match InMemoryContainer.blobs container !! blobName with
       | None =>
           match readFileSync filePath with
           | inl error => (reject error, this)
           | inr data =>
               (resolve tt,
                setBlobs (BlobPath.containerName blobPath) container
                  (<[blobName := {| InMemoryBlob.contents := data;
                                    InMemoryBlob.contentType := Some (contentTypeOrDefault options) |}]>
                     (InMemoryContainer.blobs container)) this)
           end
       | Some blob =>
           match readFileSync filePath with
           | inl error => (reject error, this)
           | inr data =>
               let blob := {| InMemoryBlob.contents := data;
                              InMemoryBlob.contentType := InMemoryBlob.contentType blob |} in
               let blob := {| InMemoryBlob.contents := InMemoryBlob.contents blob;
                              InMemoryBlob.contentType := Some (contentTypeOrDefault options) |} in
               (resolve tt,
                setBlobs (BlobPath.containerName blobPath) container
                  (<[blobName := blob]> (InMemoryContainer.blobs container)) this)
           end
       end).

Definition getBlobContentType (blobPath : BlobPath.arg) : Op Containers (option string) :=
  then_ (getInMemoryBlob blobPath)
    (fun blob => Promise_resolve (InMemoryBlob.contentType blob)).

(** [blob] is the object stored at the parsed path; the callback assigns
    its [contentType] field. *)
Definition setBlobContentType (blobPath : BlobPath.arg) (contentType : string) : Op Containers unit :=
  then_ (getInMemoryBlob blobPath)
    (fun blob this =>
       let blob := {| InMemoryBlob.contents := InMemoryBlob.contents blob;
                      InMemoryBlob.contentType := Some contentType |} in
       let blobPath := BlobPath.parse blobPath in
       (resolve tt,
        alter (fun container =>
                 {| InMemoryContainer.name := InMemoryContainer.name container;
                    InMemoryContainer.blobs :=
                      <[BlobPath.blobName blobPath := blob]> (InMemoryContainer.blobs container);
                    InMemoryContainer.accessPolicy := InMemoryContainer.accessPolicy container |})
          (BlobPath.containerName blobPath) this)).

Definition deleteBlob (blobPath : BlobPath.arg) : Op Containers bool :=
  let blobPath := BlobPath.parse blobPath in
  let blobName := BlobPath.blobName blobPath in
  then_ (getInMemoryContainer (ofPath blobPath))
    (fun container this =>
       if has blobName (InMemoryContainer.blobs container) then
         (resolve true,
          setBlobs (BlobPath.containerName blobPath) container
            (delete blobName (InMemoryContainer.blobs container)) this)
       else (resolve false, this)).

Definition createContainer (containerName : string) (options : option CreateContainerOptions.t) : Op Containers bool :=
  then_
    (catch_ (widen (getInMemoryContainer (ofName containerName)))
       (fun error => settled (resolveIfErrorMessageContains error "ContainerNotFound" None)))
    (fun _ this =>
       let result := negb (has containerName this) in
       if result then
         (resolve result,
          <[containerName := {| InMemoryContainer.name := containerName;
                                InMemoryContainer.blobs := ∅;
                                InMemoryContainer.accessPolicy := accessPolicyOrDefault options |}]> this)
       else (resolve result, this)).

Definition containerExists (containerName : string) : Op Containers bool :=
  catch_
    (then_ (getInMemoryContainer (ofName containerName)) (fun _ => Promise_resolve true))
    (fun error => settled (resolveIfErrorMessageContains error "ContainerNotFound" false)).

Definition getContainerAccessPolicy (containerName : string) : Op Containers ContainerAccessPolicy :=
  then_ (getInMemoryContainer (ofName containerName))
    (fun container => Promise_resolve (InMemoryContainer.accessPolicy container)).

Definition setContainerAccessPolicy (containerName : string) (permissions : ContainerAccessPolicy) : Op Containers unit :=
  then_ (getInMemoryContainer (ofName containerName))
    (fun container this =>
       (resolve tt, setAccessPolicy containerName container permissions this)).

Definition deleteContainer (containerName : string) : Op Containers bool :=
  catch_
    (then_ (getInMemoryContainer (ofName containerName))
       (fun _ this => (resolve true, delete containerName this)))
    (fun error => settled (resolveIfErrorMessageContains error "ContainerNotFound" false)).

End Backend.

Definition getURL : string := "https://fake.storage.com/".

Definition getContainerURL (containerName : string) : string :=
  getURL +:+ containerName.

Definition getBlobURL (blobPath : BlobPath.arg) : string :=
  let blobPath := BlobPath.parse blobPath in
  getContainerURL (BlobPath.containerName blobPath) +:+ "/" +:+ BlobPath.blobName blobPath.

(** The shape of the stores that [createContainer] builds: a container is
    stored under its own name, and that name passed the validation. *)
Definition wellFormed `{Host} (this : Containers) : Prop :=
  forall (key : string) (container : InMemoryContainer.t),
    this !! key = Some container ->
    InMemoryContainer.name container = key /\ invalidName key = false.

End InMemoryBlobStorage.

(** A host for running the model: ASCII names, UTF-8 conversions with
    replacement, and a file system with the single file [data.bin]. *)
Definition exampleHost : Host :=
  {| toLowerCase := JS.toLowerCase_ascii;
     Buffer_from := JS.encodeUTF8;
     Buffer_toString := JS.decodeUTF8;
     readFileSync := fun filePath =>
       if String.eqb filePath "data.bin"
       then inr (String.list_byte_of_string "abc")
       else inl (newError "ENOENT: no such file or directory") |}.

(** Two stores for running the model: one with the empty container
    [logs], one in which [logs] holds the blob [a.txt]. *)
Definition storeWithLogs : InMemoryBlobStorage.Containers :=
  <["logs" := {| InMemoryContainer.name := "logs";
                 InMemoryContainer.blobs := ∅;
                 InMemoryContainer.accessPolicy := Private |}]> ∅.


(** ** Cloud backend *)

Module AzureBlobStorage.

(** What the backend uses of [URLBuilder] (lib/url.ts) and of [replaceAll]
    (lib/common.ts). A [URLBuilder] is mutable in the source; here its
    setters return the updated builder. *)
Class URLLibrary := {
  URLBuilder : Type;
  URLBuilder_parse : string -> URLBuilder;
  URLBuilder_removeQuery : string -> URLBuilder;
  getPath : URLBuilder -> option string;
  setPath : URLBuilder -> string -> URLBuilder;
  removeQuery : URLBuilder -> URLBuilder;
  URLBuilder_toString : URLBuilder -> string;
  replaceAll : string -> string -> string -> string
}.

(** What the backend uses of the storage SDK: the URLs it derives from the
    account URL, and the requests it sends to a remote service whose state
    has type [Service]. *)
Class StorageSDK (Service : Type) := {
  ContainerURL_url : string -> string -> string;
  BlockBlobURL_url : string -> BlobPath.t -> string;
  BlockBlobURL_getProperties : BlobPath.t -> Op Service (option string);
  BlockBlobURL_delete : BlobPath.t -> Op Service unit;
  ContainerURL_getProperties : string -> Op Service unit;
  ContainerURL_create : string -> option ContainerAccessPolicy -> Op Service unit;
  ContainerURL_delete : string -> Op Service unit
}.

(** [options && !options.sasToken] *)
Definition withoutSasToken (options : option GetURLOptions.t) : bool :=
  match options with
  | Some o => negb (default false (GetURLOptions.sasToken o))
  | None => false
  end.

Definition getAzureContainerAccessPermissions (permissions : option ContainerAccessPolicy)
    : option ContainerAccessPolicy :=
  match permissions with
  | Some Private | None => None
  | Some p => Some p
  end.

Section URLs.
Context `{URLLibrary} {Service : Type} `{StorageSDK Service}.

(** [url] is the field [this.url]. *)
Definition getURL (url : string) (options : option GetURLOptions.t) : string :=
  let result := url in
  let result :=
    if withoutSasToken options
    then URLBuilder_toString (URLBuilder_removeQuery result)
    else result in
  url.

(** The shared tail of [getContainerURL] and [getBlobURL]. *)
Definition normalizeURL (sdkUrl : string) (options : option GetURLOptions.t) : string :=
  let url := URLBuilder_parse sdkUrl in
  let path := getPath url in
  let url :=
    match path with
    | Some path => if JS.truthy path then setPath url (replaceAll path "%2F" "/") else url
    | None => url
    end in
  let url := if withoutSasToken options then removeQuery url else url in
  URLBuilder_toString url.

Definition getContainerURL (url containerName : string) (options : option GetURLOptions.t) : string :=
  normalizeURL (ContainerURL_url url containerName) options.

Definition getBlobURL (url : string) (blobPath : BlobPath.arg) (options : option GetURLOptions.t) : string :=
  normalizeURL (BlockBlobURL_url url (BlobPath.parse blobPath)) options.

End URLs.

Section Requests.
Context {Service : Type} `{StorageSDK Service}.

Definition blobExists (blobPath : BlobPath.arg) : Op Service bool :=
  catch_
    (then_ (BlockBlobURL_getProperties (BlobPath.parse blobPath)) (fun _ => Promise_resolve true))
    (fun error => settled (resolveIfErrorStatusCodeEquals error 404 false)).

Definition containerExists (containerName : string) : Op Service bool :=
  catch_
    (then_ (ContainerURL_getProperties containerName) (fun _ => Promise_resolve true))
    (fun error => settled (resolveIfErrorMessageContains error "ContainerNotFound" false)).

Definition getBlobContentType (blobPath : BlobPath.arg) : Op Service (option string) :=
  let blobPath := BlobPath.parse blobPath in
  let containerName := BlobPath.containerName blobPath in
  catch_
    (then_ (BlockBlobURL_getProperties blobPath) (fun contentType => Promise_resolve contentType))
    (fun error =>
       if negb (bool_decide (statusCode error = Some 404))
       then Promise_reject error
       else then_ (containerExists containerName)
              (fun exists_ =>
                 Promise_reject
                   (newError (if negb exists_
                              then "ContainerNotFound: The specified container does not exist."
                              else "BlobNotFound: The specified blob does not exist.")))).

Definition deleteBlob (blobPath : BlobPath.arg) : Op Service bool :=
  catch_
    (then_ (BlockBlobURL_delete (BlobPath.parse blobPath)) (fun _ => Promise_resolve true))
    (fun error => settled (resolveIfErrorMessageContains error "BlobNotFound" false)).

Definition createContainer (containerName : string) (options : option CreateContainerOptions.t) : Op Service bool :=
  catch_
    (then_ (ContainerURL_create containerName
              (getAzureContainerAccessPermissions (options ≫= CreateContainerOptions.accessPolicy)))
       (fun _ => Promise_resolve true))
    (fun error => settled (resolveIfErrorMessageContains error "ContainerAlreadyExists" false)).

Definition deleteContainer (containerName : string) : Op Service bool :=
  catch_
    (then_ (ContainerURL_delete containerName) (fun _ => Promise_resolve true))
    (fun error => settled (resolveIfErrorStatusCodeEquals error 404 false)).

End Requests.

(** The response of [ServiceURL.listContainersSegment]: the names of its
    [containerItems] and its [nextMarker]. *)
Module ListContainersSegmentResponse.
Record t := {
  containerItems : list string;
  nextMarker : option string
}.
End ListContainersSegmentResponse.

(** Further requests of the SDK: the access policy of a container (the
    field [blobPublicAccess] of the response, and the access that is sent)
    and one segment of the list of containers after a marker. *)
Class AccountSDK (Service : Type) := {
  ContainerURL_getAccessPolicy : string -> Op Service (option ContainerAccessPolicy);
  ContainerURL_setAccessPolicy : string -> option ContainerAccessPolicy -> Op Service unit;
  ServiceURL_listContainersSegment : option string -> Op Service ListContainersSegmentResponse.t
}.

(** [while (listContainersResponse.nextMarker)]: the marker to go on with. *)
Definition continuation (nextMarker : option string) : option string :=
  match nextMarker with
  | Some marker => if JS.truthy marker then Some marker else None
  | None => None
  end.

Section Account.
Context {Service : Type} `{AccountSDK Service}.

(** [map] of lib/arrays.ts, which builds the handles of one segment. *)
Context (map : list string -> (string -> BlobStorageContainer) -> list BlobStorageContainer).

Definition getContainerAccessPolicy (containerName : string) : Op Service ContainerAccessPolicy :=
  then_ (ContainerURL_getAccessPolicy containerName)
    (fun blobPublicAccess => Promise_resolve (default Private blobPublicAccess)).

Definition setContainerAccessPolicy (containerName : string) (permissions : ContainerAccessPolicy)
    : Op Service unit :=
  then_ (ContainerURL_setAccessPolicy containerName
           (getAzureContainerAccessPermissions (Some permissions)))
    (fun _ => Promise_resolve tt).

(** The loop of [listContainers]; [None] when it has not ended after
    [fuel] further segments. *)
Fixpoint listContainers_while (fuel : nat) (result : list BlobStorageContainer)
    (listContainersResponse : ListContainersSegmentResponse.t) (service : Service)
    : option (Promise (list BlobStorageContainer) * Service) :=
  match continuation (ListContainersSegmentResponse.nextMarker listContainersResponse) with
  | None => Some (resolve result, service)
  | Some marker =>
      match fuel with
      | O => None
      | Datatypes.S fuel' =>
          match ServiceURL_listContainersSegment (Some marker) service with
          | (resolve response, service') =>
              listContainers_while fuel'
                (result ++ map (ListContainersSegmentResponse.containerItems response)
                             (fun name => {| container_name := name |}))
                response service'
          | (reject error, service') => Some (reject error, service')
          end
      end
  end.

Definition listContainers (fuel : nat) (service : Service)
    : option (Promise (list BlobStorageContainer) * Service) :=
  match ServiceURL_listContainersSegment None service with
  | (resolve response, service') =>
      listContainers_while fuel
        ([] ++ map (ListContainersSegmentResponse.containerItems response)
                 (fun name => {| container_name := name |}))
        response service'
  | (reject error, service') => Some (reject error, service')
  end.

(** The segments that the service hands out from a marker on, up to the
    first response without a marker to go on with. *)
Inductive segments : option string -> Service -> list (list string) -> Service -> Prop :=
| segments_last marker service response service' :
    ServiceURL_listContainersSegment marker service = (resolve response, service') ->
    continuation (ListContainersSegmentResponse.nextMarker response) = None ->
    segments marker service [ListContainersSegmentResponse.containerItems response] service'
| segments_next marker service response service1 next rest service' :
    ServiceURL_listContainersSegment marker service = (resolve response, service1) ->
    continuation (ListContainersSegmentResponse.nextMarker response) = Some next ->
    segments (Some next) service1 rest service' ->
    segments marker service
      (ListContainersSegmentResponse.containerItems response :: rest) service'.

End Account.

End AzureBlobStorage.

(** Services for running the cloud backend: one that refuses every
    request with status 403, and an account with one container [logs]
    whose state is its public access and whose list of containers comes in
    two segments. *)
Definition forbidden : Error :=
  {| message := "AuthorizationFailure: This request is not authorized."; statusCode := Some 403 |}.

Definition refusingSDK : AzureBlobStorage.StorageSDK unit :=
  {| AzureBlobStorage.ContainerURL_url := fun url containerName => url +:+ containerName;
     AzureBlobStorage.BlockBlobURL_url := fun url blobPath => url +:+ BlobPath.toString blobPath;
     AzureBlobStorage.BlockBlobURL_getProperties := fun _ => Promise_reject forbidden;
     AzureBlobStorage.BlockBlobURL_delete := fun _ => Promise_reject forbidden;
     AzureBlobStorage.ContainerURL_getProperties := fun _ => Promise_reject forbidden;
     AzureBlobStorage.ContainerURL_create := fun _ _ => Promise_reject forbidden;
     AzureBlobStorage.ContainerURL_delete := fun _ => Promise_reject forbidden |}.

Definition accountSDK : AzureBlobStorage.AccountSDK (option ContainerAccessPolicy) :=
  {| AzureBlobStorage.ContainerURL_getAccessPolicy := fun _ access => (resolve access, access);
     AzureBlobStorage.ContainerURL_setAccessPolicy := fun _ access _ => (resolve tt, access);
     AzureBlobStorage.ServiceURL_listContainersSegment := fun marker =>
       Promise_resolve
         (match marker with
          | None =>
              {| AzureBlobStorage.ListContainersSegmentResponse.containerItems := ["a"; "b"];
                 AzureBlobStorage.ListContainersSegmentResponse.nextMarker := Some "m1" |}
          | Some _ =>
              {| AzureBlobStorage.ListContainersSegmentResponse.containerItems := ["c"];
                 AzureBlobStorage.ListContainersSegmentResponse.nextMarker := Some "" |}
          end) |}.

(** ** The errors raised by the in-memory backend *)

Definition InvalidResourceNameError : Error :=
  newError "InvalidResourceName: The specifed resource name contains invalid characters.".

Definition ContainerNotFoundError : Error :=
  newError "ContainerNotFound: The specified container does not exist.".

Definition BlobNotFoundError : Error :=
  newError "BlobNotFound: The specified blob does not exist.".

(** The kind of an error is the prefix of its message. *)
Definition hasKind (kind : string) (error : Error) : bool :=
  String.prefix kind (message error).

(** ** Storage contract and navigation handles *)

(** The abstract methods of [BlobStorage] that the handles call. A handle
    holds a reference to its storage; here the storage is the instance in
    scope and its state is threaded by [Op]. *)
Module BlobStorage.
Class t (S : Type) := {
  getURL : option GetURLOptions.t -> string;
  getContainerURL : string -> option GetURLOptions.t -> string;
  getBlobURL : BlobPath.arg -> option GetURLOptions.t -> string;
  createBlob : BlobPath.arg -> option BlobContentOptions.t -> Op S bool;
  blobExists : BlobPath.arg -> Op S bool;
  getBlobContentsAsString : BlobPath.arg -> Op S (option string);
  setBlobContentsFromString : BlobPath.arg -> string -> option BlobContentOptions.t -> Op S unit;
  setBlobContentsFromFile : BlobPath.arg -> string -> option BlobContentOptions.t -> Op S unit;
  getBlobContentType : BlobPath.arg -> Op S (option string);
  setBlobContentType : BlobPath.arg -> string -> Op S unit;
  deleteBlob : BlobPath.arg -> Op S bool;
  createContainer : string -> option CreateContainerOptions.t -> Op S bool;
  containerExists : string -> Op S bool;
  getContainerAccessPolicy : string -> Op S ContainerAccessPolicy;
  setContainerAccessPolicy : string -> ContainerAccessPolicy -> Op S unit;
  deleteContainer : string -> Op S bool
}.
End BlobStorage.

(** [typeof path === "string" ? BlobPath.parse(path) : path] *)
Definition pathOf (path : BlobPath.arg) : BlobPath.t :=
  match path with
  | BlobPath.ofString s => BlobPath.parse (BlobPath.ofString s)
  | BlobPath.ofBlobPath p => p
  end.

Definition BlobStorage_getBlob (blobPath : BlobPath.arg) : BlobStorageBlob :=
  {| blob_path := pathOf blobPath |}.

Definition BlobStorage_getPrefix (prefix : BlobPath.arg) : BlobStoragePrefix :=
  {| prefix_path := pathOf prefix |}.

Definition BlobStorage_getContainer (containerName : string) : BlobStorageContainer :=
  {| container_name := containerName |}.

Section Handles.
Context {S : Type} `{BlobStorage.t S}.

Definition BlobStorageBlob_getURL (this : BlobStorageBlob) (options : option GetURLOptions.t) : string :=
  BlobStorage.getBlobURL (BlobPath.ofBlobPath (blob_path this)) options.

Definition BlobStorageBlob_create (this : BlobStorageBlob) (options : option BlobContentOptions.t) : Op S bool :=
  BlobStorage.createBlob (BlobPath.ofBlobPath (blob_path this)) options.

Definition BlobStorageBlob_exists (this : BlobStorageBlob) : Op S bool :=
  BlobStorage.blobExists (BlobPath.ofBlobPath (blob_path this)).

Definition BlobStorageBlob_delete (this : BlobStorageBlob) : Op S bool :=
  BlobStorage.deleteBlob (BlobPath.ofBlobPath (blob_path this)).


Definition BlobStorageBlob_setContentsFromString (this : BlobStorageBlob) (blobContents : string)
    (options : option BlobContentOptions.t) : Op S unit :=
  BlobStorage.setBlobContentsFromString (BlobPath.ofBlobPath (blob_path this)) blobContents options.

Definition BlobStorageBlob_setContentsFromFile (this : BlobStorageBlob) (filePath : string)
    (options : option BlobContentOptions.t) : Op S unit :=
  BlobStorage.setBlobContentsFromFile (BlobPath.ofBlobPath (blob_path this)) filePath options.


Definition BlobStorageBlob_setContentType (this : BlobStorageBlob) (contentType : string) : Op S unit :=
  BlobStorage.setBlobContentType (BlobPath.ofBlobPath (blob_path this)) contentType.

Definition BlobStorageContainer_getURL (this : BlobStorageContainer) (options : option GetURLOptions.t) : string :=
  BlobStorage.getContainerURL (container_name this) options.

Definition BlobStorageContainer_getBlob (this : BlobStorageContainer) (blobName : string) : BlobStorageBlob :=
  BlobStorage_getBlob (BlobPath.ofBlobPath (BlobPath.new (container_name this) blobName)).

Definition BlobStorageContainer_getPrefix (this : BlobStorageContainer) (path : string) : BlobStoragePrefix :=
  BlobStorage_getPrefix (BlobPath.ofBlobPath (BlobPath.new (container_name this) path)).

Definition BlobStorageContainer_create (this : BlobStorageContainer)
    (options : option CreateContainerOptions.t) : Op S bool :=
  BlobStorage.createContainer (container_name this) options.

Definition BlobStorageContainer_exists (this : BlobStorageContainer) : Op S bool :=
  BlobStorage.containerExists (container_name this).

Definition BlobStorageContainer_getAccessPolicy (this : BlobStorageContainer) : Op S ContainerAccessPolicy :=
  BlobStorage.getContainerAccessPolicy (container_name this).

Definition BlobStorageContainer_setAccessPolicy (this : BlobStorageContainer)
    (policy : ContainerAccessPolicy) : Op S unit :=
  BlobStorage.setContainerAccessPolicy (container_name this) policy.

Definition BlobStorageContainer_delete (this : BlobStorageContainer) : Op S bool :=
  BlobStorage.deleteContainer (container_name this).

Definition BlobStorageContainer_createBlob (this : BlobStorageContainer) (blobName : string) : Op S bool :=
  BlobStorage.createBlob (BlobPath.ofBlobPath (BlobPath.new (container_name this) blobName)) None.

Definition BlobStorageContainer_blobExists (this : BlobStorageContainer) (blobName : string) : Op S bool :=
  BlobStorage.blobExists (BlobPath.ofBlobPath (BlobPath.new (container_name this) blobName)).



Definition BlobStorageContainer_deleteBlob (this : BlobStorageContainer) (blobName : string) : Op S bool :=
  BlobStorage.deleteBlob (BlobPath.ofBlobPath (BlobPath.new (container_name this) blobName)).

Definition BlobStoragePrefix_getURL (this : BlobStoragePrefix) (options : option GetURLOptions.t) : string :=
  BlobStorage.getBlobURL (BlobPath.ofBlobPath (prefix_path this)) options.

Definition BlobStoragePrefix_getContainer (this : BlobStoragePrefix) : BlobStorageContainer :=
  BlobStorage_getContainer (BlobPath.containerName (prefix_path this)).

Definition BlobStoragePrefix_getBlob (this : BlobStoragePrefix) (blobName : string) : BlobStorageBlob :=
  BlobStorageContainer_getBlob (BlobStoragePrefix_getContainer this)
    (BlobPath.blobName (prefix_path this) +:+ blobName).

Definition BlobStoragePrefix_getPrefix (this : BlobStoragePrefix) (path : string) : BlobStoragePrefix :=
  BlobStorageContainer_getPrefix (BlobStoragePrefix_getContainer this)
    (BlobPath.blobName (prefix_path this) +:+ path).

Definition BlobStoragePrefix_createBlob (this : BlobStoragePrefix) (blobName : string) : Op S bool :=
  BlobStorageContainer_createBlob (BlobStoragePrefix_getContainer this)
    (BlobPath.blobName (prefix_path this) +:+ blobName).

Definition BlobStoragePrefix_blobExists (this : BlobStoragePrefix) (blobName : string) : Op S bool :=
  BlobStorageContainer_blobExists (BlobStoragePrefix_getContainer this)
    (BlobPath.blobName (prefix_path this) +:+ blobName).



Definition BlobStoragePrefix_deleteBlob (this : BlobStoragePrefix) (blobName : string) : Op S bool :=
  BlobStorageContainer_deleteBlob (BlobStoragePrefix_getContainer this)
    (BlobPath.blobName (prefix_path this) +:+ blobName).

End Handles.

(** [InMemoryBlobStorage extends BlobStorage] *)
#[export] Instance InMemoryBlobStorage_BlobStorage `{Host}
    : BlobStorage.t InMemoryBlobStorage.Containers := {
  BlobStorage.getURL _ := InMemoryBlobStorage.getURL;
  BlobStorage.getContainerURL containerName _ := InMemoryBlobStorage.getContainerURL containerName;
  BlobStorage.getBlobURL blobPath _ := InMemoryBlobStorage.getBlobURL blobPath;
  BlobStorage.createBlob := InMemoryBlobStorage.createBlob;
  BlobStorage.blobExists := InMemoryBlobStorage.blobExists;
  BlobStorage.getBlobContentsAsString blobPath :=
    widen (InMemoryBlobStorage.getBlobContentsAsString blobPath);
  BlobStorage.setBlobContentsFromString := InMemoryBlobStorage.setBlobContentsFromString;
  BlobStorage.setBlobContentsFromFile := InMemoryBlobStorage.setBlobContentsFromFile;
  BlobStorage.getBlobContentType := InMemoryBlobStorage.getBlobContentType;
  BlobStorage.setBlobContentType := InMemoryBlobStorage.setBlobContentType;
  BlobStorage.deleteBlob := InMemoryBlobStorage.deleteBlob;
  BlobStorage.createContainer := InMemoryBlobStorage.createContainer;
  BlobStorage.containerExists := InMemoryBlobStorage.containerExists;
  BlobStorage.getContainerAccessPolicy := InMemoryBlobStorage.getContainerAccessPolicy;
  BlobStorage.setContainerAccessPolicy := InMemoryBlobStorage.setContainerAccessPolicy;
  BlobStorage.deleteContainer := InMemoryBlobStorage.deleteContainer
}.

(** [InMemoryBlobStorage.listContainers]; [Object_keys] is the built-in
    [Object.keys], which lists the own keys of the store in the order of
    the engine. *)
Definition InMemoryBlobStorage_listContainers
    (Object_keys : InMemoryBlobStorage.Containers -> list string)
    : Op InMemoryBlobStorage.Containers (list BlobStorageContainer) :=
  fun this =>
    (resolve (fold_left (fun result containerName =>
                           result ++ [BlobStorage_getContainer containerName])
                (Object_keys this) []),
     this).

(** ** Lemmas on the string primitives *)

Section StringLemmas.

Lemma append_nil (t : string) : "" +:+ t = t.
Proof. reflexivity. Qed.

Lemma append_cons (a : ascii) (s t : string) : String a s +:+ t = String a (s +:+ t).
Proof. reflexivity. Qed.

Lemma length_append (s t : string) :
  String.length (s +:+ t) = (String.length s + String.length t)%nat.
Proof.
  induction s as [|a s IH]; [reflexivity |].
  rewrite append_cons. cbn [String.length]. now rewrite IH.
Qed.

Lemma substring_zero_zero (s : string) : String.substring 0 0 s = "".
Proof. now destruct s. Qed.

Lemma substring_all (s : string) : String.substring 0 (String.length s) s = s.
Proof. induction s as [|a s IH]; simpl; [reflexivity | now rewrite IH]. Qed.

Lemma substring_head (s t : string) :
  String.substring 0 (String.length s) (s +:+ t) = s.
Proof.
  induction s as [|a s IH].
  - apply substring_zero_zero.
  - rewrite append_cons. cbn [String.length String.substring]. now rewrite IH.
Qed.

Lemma substring_tail (s t : string) (m : nat) :
  String.substring (String.length s) m (s +:+ t) = String.substring 0 m t.
Proof.
  induction s as [|a s IH]; [reflexivity |].
  rewrite append_cons. cbn [String.length String.substring]. apply IH.
Qed.

Lemma prefix_slash (a : Ascii.ascii) (s : string) :
  String.prefix "/" (String a s) = bool_decide (a = "/"%char).
Proof.
  cbn [String.prefix]. destruct (Ascii.ascii_dec "/" a) as [<- | Hne].
  - rewrite bool_decide_eq_true_2 by reflexivity. now destruct s.
  - rewrite bool_decide_eq_false_2; [reflexivity | congruence].
Qed.

Lemma indexOf_from_lower (s sub : string) (p : Z) :
  0 <= p -> JS.indexOf_from s sub p = -1 \/ p <= JS.indexOf_from s sub p.
Proof.
  revert p. induction s as [|a s IH]; intros p Hp; cbn [JS.indexOf_from].
  - destruct (String.prefix sub ""); [right; lia | now left].
  - destruct (String.prefix sub (String a s)); [right; lia |].
    destruct (IH (p + 1)) as [-> | Hle]; [lia | now left | right; lia].
Qed.

(** The first separator of [c/rest] is at [length c] when [c] has none. *)
Lemma indexOf_from_first_slash (c rest : string) (p : Z) :
  0 <= p ->
  JS.indexOf_from c "/" p = -1 ->
  JS.indexOf_from (c +:+ "/" +:+ rest) "/" p = p + Z.of_nat (String.length c).
Proof.
  revert p. induction c as [|a c IH]; intros p Hp Hnone.
  - rewrite append_nil, append_cons. cbn [JS.indexOf_from String.length].
    rewrite prefix_slash, bool_decide_eq_true_2 by reflexivity. lia.
  - rewrite append_cons. cbn [JS.indexOf_from] in *. rewrite prefix_slash in *.
    case_bool_decide; [lia |].
    rewrite IH by (lia || assumption). cbn [String.length]. lia.
Qed.

(** A string in which [indexOf] finds a separator splits at it. *)
Lemma indexOf_from_found (s : string) (p : Z) :
  0 <= p ->
  JS.indexOf_from s "/" p <> -1 ->
  exists c rest, s = c +:+ "/" +:+ rest /\ JS.indexOf_from c "/" p = -1.
Proof.
  revert p. induction s as [|a s IH]; intros p Hp Hfound.
  - simpl in Hfound. congruence.
  - cbn [JS.indexOf_from] in Hfound. rewrite prefix_slash in Hfound.
    case_bool_decide as Ha.
    + subst a. exists "", s. split; [reflexivity | reflexivity].
    + destruct (IH (p + 1)) as (c & rest & -> & Hc); [lia | assumption |].
      exists (String a c), rest. split; [reflexivity |].
      cbn [JS.indexOf_from]. rewrite prefix_slash.
      now rewrite bool_decide_eq_false_2.
Qed.

Lemma substring_range (s : string) (a b : Z) :
  0 <= a <= b -> b <= Z.of_nat (String.length s) ->
  JS.substring s a (Some b) = String.substring (Z.to_nat a) (Z.to_nat (b - a)) s.
Proof.
  intros Hab Hb. unfold JS.substring, JS.clamp, default, from_option, id.
  f_equal; lia.
Qed.

Lemma substring_suffix (s : string) (a : Z) :
  0 <= a <= Z.of_nat (String.length s) ->
  JS.substring s a None =
  String.substring (Z.to_nat a) (String.length s - Z.to_nat a) s.
Proof.
  intros Ha. unfold JS.substring, JS.clamp, default, from_option, id.
  f_equal; lia.
Qed.

Lemma append_assoc (s t u : string) : s +:+ (t +:+ u) = (s +:+ t) +:+ u.
Proof.
  induction s as [|a s IH]; [reflexivity |].
  rewrite !append_cons. f_equal. exact IH.
Qed.

Lemma substring_before_slash (c rest : string) :
  JS.substring (c +:+ "/" +:+ rest) 0 (Some (Z.of_nat (String.length c))) = c.
Proof.
  rewrite substring_range by (rewrite ?length_append; lia).
  replace (Z.to_nat (Z.of_nat (String.length c) - 0)) with (String.length c) by lia.
  apply substring_head.
Qed.

Lemma substring_after_slash (c rest : string) :
  JS.substring (c +:+ "/" +:+ rest) (Z.of_nat (String.length c) + 1) None = rest.
Proof.
  rewrite substring_suffix by (rewrite !length_append; cbn [String.length]; lia).
  rewrite append_assoc.
  replace (Z.to_nat (Z.of_nat (String.length c) + 1)) with (String.length (c +:+ "/"))
    by (rewrite length_append; cbn [String.length]; lia).
  rewrite substring_tail, length_append, Nat.add_comm, Nat.add_sub.
  apply substring_all.
Qed.

Lemma substring_negative_end (s : string) :
  JS.substring s 0 (Some (-1)) = "".
Proof.
  unfold JS.substring, JS.clamp, default, from_option, id.
  replace (Z.to_nat (Z.min _ _)) with 0%nat by lia.
  match goal with |- String.substring _ (Z.to_nat ?e) _ = _ =>
    replace (Z.to_nat e) with 0%nat by lia end.
  apply substring_zero_zero.
Qed.

Lemma substring_from_zero (s : string) :
  JS.substring s 0 None = s.
Proof.
  rewrite substring_suffix by lia.
  rewrite Nat.sub_0_r. apply substring_all.
Qed.

End StringLemmas.

(** ** Path model: parsing and printing *)

Lemma parse_split (c rest : string) :
  JS.indexOf c "/" = -1 ->
  BlobPath.parse (BlobPath.ofString (c +:+ "/" +:+ rest)) = BlobPath.new c rest.
Proof.
  intros Hc. unfold BlobPath.parse, JS.indexOf in *.
  rewrite indexOf_from_first_slash by (lia || assumption).
  rewrite Z.add_0_l, substring_before_slash, substring_after_slash.
  reflexivity.
Qed.

(** [BlobPath.parse] splits at the first separator and [toString] puts the
    two parts back together. *)
Lemma toString_parse (s : string) :
  JS.indexOf s "/" <> -1 ->
  BlobPath.toString (BlobPath.parse (BlobPath.ofString s)) = s.
Proof.
  intros Hfound.
  destruct (indexOf_from_found s 0) as (c & rest & -> & Hc); [lia | exact Hfound |].
  now rewrite parse_split.
Qed.

(** C6: for every string [containerName/rest] whose [containerName] holds
    no separator (the split is at the first one, [rest] may hold more),
    [BlobPath.parse] yields [containerName] as the container and [rest] as
    the blob name, and [toString] of the result is the original string. At
    ["a"] and ["b/c"] this is the example [parse("a/b/c")]. *)
Theorem parse_first_separator_roundtrip (containerName rest : string)
    (Hfirst : JS.indexOf containerName "/" = -1) :
  let parsed := BlobPath.parse (BlobPath.ofString (containerName +:+ "/" +:+ rest)) in
  BlobPath.containerName parsed = containerName
  /\ BlobPath.blobName parsed = rest
  /\ BlobPath.toString parsed = containerName +:+ "/" +:+ rest.
Proof.
  cbv zeta. rewrite parse_split by exact Hfirst. repeat split.
Qed.

Lemma parse_first_separator_roundtrip_witness :
  JS.indexOf "a" "/" = -1
  /\ BlobPath.containerName (BlobPath.parse (BlobPath.ofString "a/b/c")) = "a"
  /\ BlobPath.blobName (BlobPath.parse (BlobPath.ofString "a/b/c")) = "b/c"
  /\ BlobPath.toString (BlobPath.parse (BlobPath.ofString "a/b/c")) = "a/b/c".
Proof.
  split; [reflexivity |].
  apply (parse_first_separator_roundtrip "a" "b/c"). reflexivity.
Defined.

Lemma parse_no_separator (s : string) :
  JS.indexOf s "/" = -1 ->
  BlobPath.parse (BlobPath.ofString s) = BlobPath.new "" s.
Proof.
  intros Hnone. unfold BlobPath.parse. rewrite Hnone.
  change (-1 + 1) with 0.
  now rewrite substring_negative_end, substring_from_zero.
Qed.

(** ** In-memory backend: lookups *)

Import InMemoryBlobStorage.

Lemma filter_invalid_name {A} (value : A) :
  resolveIfErrorMessageContains InvalidResourceNameError "ContainerNotFound" value
  = reject InvalidResourceNameError.
Proof. vm_compute. reflexivity. Qed.

Lemma filter_container_not_found {A} (value : A) :
  resolveIfErrorMessageContains ContainerNotFoundError "ContainerNotFound" value
  = resolve value.
Proof. vm_compute. reflexivity. Qed.

Section Lookups.
Context `{Host}.

Lemma getInMemoryContainer_invalid (arg : containerArg) (this : Containers) :
  invalidName (nameOf arg) = true ->
  getInMemoryContainer arg this = (reject InvalidResourceNameError, this).
Proof.
  intros Hn. unfold getInMemoryContainer. now rewrite Hn.
Qed.

Lemma getInMemoryContainer_missing (arg : containerArg) (this : Containers) :
  invalidName (nameOf arg) = false ->
  this !! nameOf arg = None ->
  getInMemoryContainer arg this = (reject ContainerNotFoundError, this).
Proof.
  intros Hn Hnone. unfold getInMemoryContainer.
  now rewrite Hn, Hnone.
Qed.

Lemma getInMemoryContainer_found (arg : containerArg) (this : Containers)
    (container : InMemoryContainer.t) :
  invalidName (nameOf arg) = false ->
  this !! nameOf arg = Some container ->
  getInMemoryContainer arg this = (resolve container, this).
Proof.
  intros Hn Hsome. unfold getInMemoryContainer.
  now rewrite Hn, Hsome.
Qed.

End Lookups.

(** ** In-memory backend: name validation *)

Ltac unfold_ops :=
  unfold createContainer, containerExists, getContainerAccessPolicy,
    setContainerAccessPolicy, deleteContainer, createBlob, blobExists,
    deleteBlob, getBlobContentsAsString, setBlobContentsFromString,
    setBlobContentsFromFile, getBlobContentType, setBlobContentType,
    getInMemoryBlob;
  unfold widen; unfold then_, catch_, settled, Promise_resolve, Promise_reject.

Ltac reject_invalid Hname :=
  unfold_ops;
  rewrite getInMemoryContainer_invalid by exact Hname;
  rewrite ?filter_invalid_name;
  reflexivity.

(** C8: when the container name is empty or differs from its lowercase
    form, every operation of the in-memory backend that addresses the
    container is rejected with the [InvalidResourceName] error, whose
    message begins with that kind name; the outcome does not depend on the
    store (no lookup takes place) and the store is left as it was. *)
Theorem invalid_name_rejected `{Host} (containerName : string)
    (blobPath : BlobPath.arg) (this : Containers)
    (Hname : invalidName containerName = true)
    (Hpath : BlobPath.containerName (BlobPath.parse blobPath) = containerName) :
  hasKind "InvalidResourceName" InvalidResourceNameError = true
  /\ (forall options,
        createContainer containerName options this = (reject InvalidResourceNameError, this))
  /\ containerExists containerName this = (reject InvalidResourceNameError, this)
  /\ getContainerAccessPolicy containerName this = (reject InvalidResourceNameError, this)
  /\ (forall permissions,
        setContainerAccessPolicy containerName permissions this
        = (reject InvalidResourceNameError, this))
  /\ deleteContainer containerName this = (reject InvalidResourceNameError, this)
  /\ (forall options,
        createBlob blobPath options this = (reject InvalidResourceNameError, this))
  /\ blobExists blobPath this = (reject InvalidResourceNameError, this)
  /\ deleteBlob blobPath this = (reject InvalidResourceNameError, this)
  /\ getBlobContentsAsString blobPath this = (reject InvalidResourceNameError, this)
  /\ (forall blobContents options,
        setBlobContentsFromString blobPath blobContents options this
        = (reject InvalidResourceNameError, this))
  /\ (forall filePath options,
        setBlobContentsFromFile blobPath filePath options this
        = (reject InvalidResourceNameError, this))
  /\ getBlobContentType blobPath this = (reject InvalidResourceNameError, this)
  /\ (forall contentType,
        setBlobContentType blobPath contentType this
        = (reject InvalidResourceNameError, this)).
Proof.
  subst containerName.
  split; [vm_compute; reflexivity |].
  repeat split; intros; reject_invalid Hname.
Qed.

Lemma invalid_name_rejected_witness :
  @invalidName exampleHost "Logs" = true
  /\ @containerExists exampleHost "Logs" ∅ = (reject InvalidResourceNameError, ∅)
  /\ @deleteBlob exampleHost (BlobPath.ofString "Logs/a.txt") ∅
     = (reject InvalidResourceNameError, ∅).
Proof.
  split; [vm_compute; reflexivity |].
  pose proof (@invalid_name_rejected exampleHost "Logs" (BlobPath.ofString "Logs/a.txt") ∅
                ltac:(vm_compute; reflexivity) ltac:(reflexivity)) as Hall.
  split; [apply Hall | apply Hall].
Defined.

(** ** In-memory backend: the operations by cases *)

Lemma has_None {T} (key : string) (object : gmap string T) :
  object !! key = None -> has key object = false.
Proof.
  intros Hnone. unfold has. apply bool_decide_eq_false_2.
  rewrite Hnone. intros [? ?]; discriminate.
Qed.

Lemma has_Some {T} (key : string) (object : gmap string T) (value : T) :
  object !! key = Some value -> has key object = true.
Proof.
  intros Hsome. unfold has. apply bool_decide_eq_true_2.
  rewrite Hsome. eauto.
Qed.

Section Cases.
Context `{Host}.

Lemma getInMemoryContainer_cases (arg : containerArg) (this : Containers) :
  getInMemoryContainer arg this =
  if invalidName (nameOf arg) then (reject InvalidResourceNameError, this)
  else match this !! nameOf arg with
       | None => (reject ContainerNotFoundError, this)
       | Some container => (resolve container, this)
       end.
Proof. reflexivity. Qed.

Ltac by_cases :=
  unfold_ops; rewrite getInMemoryContainer_cases; cbn [nameOf];
  repeat match goal with
         | |- context [if invalidName ?n then _ else _] => destruct (invalidName n)
         | |- context [match ?this !! ?n with _ => _ end] => destruct (this !! n)
         end;
  rewrite ?filter_invalid_name, ?filter_container_not_found;
  try reflexivity.

Lemma containerExists_cases (containerName : string) (this : Containers) :
  containerExists containerName this =
  if invalidName containerName then (reject InvalidResourceNameError, this)
  else (resolve (bool_decide (is_Some (this !! containerName))), this).
Proof.
  unfold_ops. rewrite getInMemoryContainer_cases. cbn [nameOf].
  destruct (invalidName containerName).
  - now rewrite filter_invalid_name.
  - destruct (this !! containerName) eqn:Hc.
    + now rewrite bool_decide_eq_true_2 by eauto.
    + rewrite filter_container_not_found.
      rewrite bool_decide_eq_false_2; [reflexivity | intros [? ?]; discriminate].
Qed.

Lemma containerExists_true (containerName : string) (this : Containers) :
  containerExists containerName this = (resolve true, this) <->
  invalidName containerName = false /\ is_Some (this !! containerName).
Proof.
  rewrite containerExists_cases. destruct (invalidName containerName).
  - split; [discriminate | intros [? _]; discriminate].
  - split.
    + intros Heq. split; [reflexivity |].
      assert (Hb : bool_decide (is_Some (this !! containerName)) = true) by congruence.
      now apply bool_decide_eq_true_1 in Hb.
    + intros [_ Hsome]. now rewrite bool_decide_eq_true_2.
Qed.

Lemma blobExists_cases (blobPath : BlobPath.arg) (this : Containers) :
  let path := BlobPath.parse blobPath in
  blobExists blobPath this =
  if invalidName (BlobPath.containerName path) then (reject InvalidResourceNameError, this)
  else match this !! BlobPath.containerName path with
       | None => (resolve false, this)
       | Some container =>
           (resolve (has (BlobPath.blobName path) (InMemoryContainer.blobs container)), this)
       end.
Proof. cbv zeta. by_cases. Qed.


Lemma getInMemoryBlob_cases (blobPath : BlobPath.arg) (this : Containers) :
  let path := BlobPath.parse blobPath in
  getInMemoryBlob blobPath this =
  if invalidName (BlobPath.containerName path) then (reject InvalidResourceNameError, this)
  else match this !! BlobPath.containerName path with
       | None => (reject ContainerNotFoundError, this)
       | Some container =>
           match InMemoryContainer.blobs container !! BlobPath.blobName path with
           | Some blob => (resolve blob, this)
           | None => (reject BlobNotFoundError, this)
           end
       end.
Proof. cbv zeta. by_cases. Qed.

Lemma createContainer_cases (containerName : string)
    (options : option CreateContainerOptions.t) (this : Containers) :
  createContainer containerName options this =
  if invalidName containerName then (reject InvalidResourceNameError, this)
  else match this !! containerName with
       | Some _ => (resolve false, this)
       | None =>
           (resolve true,
            <[containerName :=
                {| InMemoryContainer.name := containerName;
                   InMemoryContainer.blobs := ∅;
                   InMemoryContainer.accessPolicy := accessPolicyOrDefault options |}]> this)
       end.
Proof.
  unfold_ops. rewrite getInMemoryContainer_cases. cbn [nameOf].
  destruct (invalidName containerName).
  - now rewrite filter_invalid_name.
  - destruct (this !! containerName) eqn:Hc.
    + now rewrite (has_Some _ _ _ Hc).
    + rewrite filter_container_not_found. now rewrite (has_None _ _ Hc).
Qed.

Lemma setBlobContentsFromString_cases (blobPath : BlobPath.arg) (blobContents : string)
    (options : option BlobContentOptions.t) (this : Containers) :
  let path := BlobPath.parse blobPath in
  setBlobContentsFromString blobPath blobContents options this =
  if invalidName (BlobPath.containerName path) then (reject InvalidResourceNameError, this)
  else match this !! BlobPath.containerName path with
       | None => (reject ContainerNotFoundError, this)
       | Some container =>
           (resolve tt,
            setBlobs (BlobPath.containerName path) container
              (<[BlobPath.blobName path :=
                   {| InMemoryBlob.contents := Buffer_from blobContents;
                      InMemoryBlob.contentType := Some (contentTypeOrDefault options) |}]>
                 (InMemoryContainer.blobs container)) this)
       end.
Proof.
  cbv zeta. by_cases.
Qed.

Lemma setBlobContentsFromFile_cases (blobPath : BlobPath.arg) (filePath : string)
    (options : option BlobContentOptions.t) (this : Containers) :
  let path := BlobPath.parse blobPath in
  setBlobContentsFromFile blobPath filePath options this =
  if invalidName (BlobPath.containerName path) then (reject InvalidResourceNameError, this)
  else match this !! BlobPath.containerName path with
       | None => (reject ContainerNotFoundError, this)
       | Some container =>
           match readFileSync filePath with
           | inl error => (reject error, this)
           | inr data =>
               (resolve tt,
                setBlobs (BlobPath.containerName path) container
                  (<[BlobPath.blobName path :=
                       {| InMemoryBlob.contents := data;
                          InMemoryBlob.contentType := Some (contentTypeOrDefault options) |}]>
                     (InMemoryContainer.blobs container)) this)
           end
       end.
Proof.
  cbv zeta. by_cases; destruct (readFileSync filePath); reflexivity.
Qed.

Lemma deleteBlob_cases (blobPath : BlobPath.arg) (this : Containers) :
  let path := BlobPath.parse blobPath in
  deleteBlob blobPath this =
  if invalidName (BlobPath.containerName path) then (reject InvalidResourceNameError, this)
  else match this !! BlobPath.containerName path with
       | None => (reject ContainerNotFoundError, this)
       | Some container =>
           if has (BlobPath.blobName path) (InMemoryContainer.blobs container)
           then (resolve true,
                 setBlobs (BlobPath.containerName path) container
                   (delete (BlobPath.blobName path) (InMemoryContainer.blobs container)) this)
           else (resolve false, this)
       end.
Proof. cbv zeta. by_cases. Qed.

End Cases.

(** ** In-memory backend: containers *)



(** ** In-memory backend: blob contents *)




(** ** In-memory backend: deleting blobs *)



(** ** In-memory backend: content type of a missing blob *)



(** ** In-memory backend: content type after a write *)


Section ContentType.
Context `{Host}.





End ContentType.




(** ** Path model: a string without separator *)

(** C3, as stated, fails: ["abc"] holds no separator and [BlobPath.parse]
    returns a [BlobPath] for it. *)
Lemma parse_without_separator_returns :
  JS.indexOf "abc" "/" = -1
  /\ BlobPath.parse (BlobPath.ofString "abc") = BlobPath.new "" "abc".
Proof. split; vm_compute; reflexivity. Qed.

(** C3, amended: for every string that holds no separator,
    [BlobPath.parse] does not fail; it returns the path whose container
    name is empty and whose blob name is the whole string. The hard
    failure comes later: the in-memory backend rejects the lookup of the
    container of that path with [InvalidResourceName]. *)
Theorem parse_without_separator `{Host} (blobPath : string)
    (Hnone : JS.indexOf blobPath "/" = -1) :
  BlobPath.parse (BlobPath.ofString blobPath) = BlobPath.new "" blobPath
  /\ forall this : Containers,
       getInMemoryContainer (ofPath (BlobPath.parse (BlobPath.ofString blobPath))) this
       = (reject InvalidResourceNameError, this).
Proof.
  rewrite (parse_no_separator blobPath Hnone). split; [reflexivity |].
  intros this. now apply getInMemoryContainer_invalid.
Qed.

Lemma parse_without_separator_witness :
  JS.indexOf "abc" "/" = -1
  /\ BlobPath.parse (BlobPath.ofString "abc") = BlobPath.new "" "abc"
  /\ @getInMemoryContainer exampleHost (ofPath (BlobPath.parse (BlobPath.ofString "abc"))) ∅
     = (reject InvalidResourceNameError, ∅).
Proof.
  assert (Hnone : JS.indexOf "abc" "/" = -1) by reflexivity.
  destruct (@parse_without_separator exampleHost "abc" Hnone) as [Hparse Hlookup].
  split; [exact Hnone |]. split; [exact Hparse | exact (Hlookup ∅)].
Defined.

(** ** Cloud backend: URLs *)

Section CloudURLs.
Context `{AzureBlobStorage.URLLibrary}.

(** [getURL] computes the URL without its query and then returns the
    field [url] all the same. *)
Lemma getURL_ignores_options (url : string) (options : option GetURLOptions.t) :
  AzureBlobStorage.getURL url options = url.
Proof. reflexivity. Qed.

(** [getContainerURL] and [getBlobURL] do return the builder from which
    the query was removed. *)
Lemma normalizeURL_removes_query (sdkUrl : string) (options : option GetURLOptions.t) :
  AzureBlobStorage.withoutSasToken options = true ->
  exists builder : AzureBlobStorage.URLBuilder,
    AzureBlobStorage.normalizeURL sdkUrl options
    = AzureBlobStorage.URLBuilder_toString (AzureBlobStorage.removeQuery builder).
Proof.
  intros Hoptions. unfold AzureBlobStorage.normalizeURL. rewrite Hoptions.
  eexists. reflexivity.
Qed.

Lemma getContainerURL_removes_query {Service : Type} `{AzureBlobStorage.StorageSDK Service}
    (url containerName : string) (options : option GetURLOptions.t) :
  AzureBlobStorage.withoutSasToken options = true ->
  exists builder : AzureBlobStorage.URLBuilder,
    AzureBlobStorage.getContainerURL url containerName options
    = AzureBlobStorage.URLBuilder_toString (AzureBlobStorage.removeQuery builder).
Proof. apply normalizeURL_removes_query. Qed.

Lemma getBlobURL_removes_query {Service : Type} `{AzureBlobStorage.StorageSDK Service}
    (url : string) (blobPath : BlobPath.arg) (options : option GetURLOptions.t) :
  AzureBlobStorage.withoutSasToken options = true ->
  exists builder : AzureBlobStorage.URLBuilder,
    AzureBlobStorage.getBlobURL url blobPath options
    = AzureBlobStorage.URLBuilder_toString (AzureBlobStorage.removeQuery builder).
Proof. apply normalizeURL_removes_query. Qed.

End CloudURLs.

(** C1 (defect in [getURL]): whatever [URLBuilder] does, for the account
    URL [https://account.blob.core.windows.net/?sv=2018-03-28&sig=abc] and
    the options [{ sasToken: false }], [getURL] returns the URL with its
    query string. *)
Theorem getURL_keeps_query `{AzureBlobStorage.URLLibrary} :
  let url := "https://account.blob.core.windows.net/?sv=2018-03-28&sig=abc" in
  let options := Some {| GetURLOptions.sasToken := Some false |} in
  AzureBlobStorage.withoutSasToken options = true
  /\ AzureBlobStorage.getURL url options = url
  /\ JS.indexOf (AzureBlobStorage.getURL url options) "?" = 38.
Proof.
  cbv zeta. split; [reflexivity |]. split; [reflexivity |].
  rewrite getURL_ignores_options. vm_compute. reflexivity.
Qed.

(** ** Cloud backend: requests *)

Section CloudRequests.
Context {Service : Type} `{AzureBlobStorage.StorageSDK Service}.





End CloudRequests.

(** ** In-memory backend: the remaining operations by cases *)

Ltac op_cases :=
  unfold_ops; rewrite getInMemoryContainer_cases; cbn [nameOf];
  repeat match goal with
         | |- context [if invalidName ?n then _ else _] => destruct (invalidName n)
         | |- context [match ?this !! ?n with _ => _ end] => destruct (this !! n) eqn:?
         end;
  rewrite ?filter_invalid_name, ?filter_container_not_found;
  try reflexivity.

Section MoreCases.
Context `{Host}.

Lemma getContainerAccessPolicy_cases (containerName : string) (this : Containers) :
  getContainerAccessPolicy containerName this =
  if invalidName containerName then (reject InvalidResourceNameError, this)
  else match this !! containerName with
       | None => (reject ContainerNotFoundError, this)
       | Some container => (resolve (InMemoryContainer.accessPolicy container), this)
       end.
Proof. op_cases. Qed.

Lemma setContainerAccessPolicy_cases (containerName : string)
    (permissions : ContainerAccessPolicy) (this : Containers) :
  setContainerAccessPolicy containerName permissions this =
  if invalidName containerName then (reject InvalidResourceNameError, this)
  else match this !! containerName with
       | None => (reject ContainerNotFoundError, this)
       | Some container =>
           (resolve tt, setAccessPolicy containerName container permissions this)
       end.
Proof. op_cases. Qed.

Lemma deleteContainer_cases (containerName : string) (this : Containers) :
  deleteContainer containerName this =
  if invalidName containerName then (reject InvalidResourceNameError, this)
  else match this !! containerName with
       | None => (resolve false, this)
       | Some _ => (resolve true, delete containerName this)
       end.
Proof. op_cases. Qed.

Lemma createBlob_cases (blobPath : BlobPath.arg) (options : option BlobContentOptions.t)
    (this : Containers) :
  let path := BlobPath.parse blobPath in
  createBlob blobPath options this =
  if invalidName (BlobPath.containerName path) then (reject InvalidResourceNameError, this)
  else match this !! BlobPath.containerName path with
       | None => (reject ContainerNotFoundError, this)
       | Some container =>
           match InMemoryContainer.blobs container !! BlobPath.blobName path with
           | Some _ => (resolve false, this)
           | None =>
               (resolve true,
                setBlobs (BlobPath.containerName path) container
                  (<[BlobPath.blobName path :=
                       {| InMemoryBlob.contents := [];
                          InMemoryBlob.contentType := Some (contentTypeOrDefault options) |}]>
                     (InMemoryContainer.blobs container)) this)
           end
       end.
Proof.
  cbv zeta. unfold_ops. rewrite getInMemoryContainer_cases. cbn [nameOf].
  destruct (invalidName _); [reflexivity |].
  destruct (this !! _) as [container|]; [| reflexivity].
  destruct (InMemoryContainer.blobs container !! _) as [blob|] eqn:Hblob.
  - now rewrite (has_Some _ _ _ Hblob).
  - now rewrite (has_None _ _ Hblob).
Qed.

Lemma getBlobContentsAsString_cases (blobPath : BlobPath.arg) (this : Containers) :
  let path := BlobPath.parse blobPath in
  getBlobContentsAsString blobPath this =
  if invalidName (BlobPath.containerName path) then (reject InvalidResourceNameError, this)
  else match this !! BlobPath.containerName path with
       | None => (reject ContainerNotFoundError, this)
       | Some container =>
           match InMemoryContainer.blobs container !! BlobPath.blobName path with
           | Some blob =>
               (resolve (Buffer_toString (InMemoryBlob.contents blob)), this)
           | None => (reject BlobNotFoundError, this)
           end
       end.
Proof. cbv zeta. op_cases. Qed.

Lemma getBlobContentType_cases (blobPath : BlobPath.arg) (this : Containers) :
  let path := BlobPath.parse blobPath in
  getBlobContentType blobPath this =
  if invalidName (BlobPath.containerName path) then (reject InvalidResourceNameError, this)
  else match this !! BlobPath.containerName path with
       | None => (reject ContainerNotFoundError, this)
       | Some container =>
           match InMemoryContainer.blobs container !! BlobPath.blobName path with
           | Some blob => (resolve (InMemoryBlob.contentType blob), this)
           | None => (reject BlobNotFoundError, this)
           end
       end.
Proof. cbv zeta. op_cases. Qed.

Lemma alter_stored {A} (f : A -> A) (key : string) (value : A) (m : gmap string A) :
  m !! key = Some value -> alter f key m = <[key := f value]> m.
Proof.
  intros Hkey. apply map_eq. intros k. destruct (decide (key = k)) as [<- | Hne].
  - now rewrite lookup_alter_eq, lookup_insert_eq, Hkey.
  - now rewrite lookup_alter_ne, lookup_insert_ne.
Qed.

Lemma setBlobContentType_cases (blobPath : BlobPath.arg) (contentType : string)
    (this : Containers) :
  let path := BlobPath.parse blobPath in
  setBlobContentType blobPath contentType this =
  if invalidName (BlobPath.containerName path) then (reject InvalidResourceNameError, this)
  else match this !! BlobPath.containerName path with
       | None => (reject ContainerNotFoundError, this)
       | Some container =>
           match InMemoryContainer.blobs container !! BlobPath.blobName path with
           | Some blob =>
               (resolve tt,
                setBlobs (BlobPath.containerName path) container
                  (<[BlobPath.blobName path :=
                       {| InMemoryBlob.contents := InMemoryBlob.contents blob;
                          InMemoryBlob.contentType := Some contentType |}]>
                     (InMemoryContainer.blobs container)) this)
           | None => (reject BlobNotFoundError, this)
           end
       end.
Proof.
  cbv zeta. unfold setBlobContentType, then_.
  pose proof (getInMemoryBlob_cases blobPath this) as Hget. cbv zeta in Hget.
  rewrite Hget. destruct (invalidName _); [reflexivity |].
  destruct (this !! _) as [container|] eqn:Hcontainer; [| reflexivity].
  destruct (InMemoryContainer.blobs container !! _) as [blob|]; [| reflexivity].
  now rewrite (alter_stored _ _ _ _ Hcontainer).
Qed.

End MoreCases.

(** ** In-memory backend: life cycle of a container *)



Section PolicyFrame.
Context `{Host}.


End PolicyFrame.









(** ** In-memory backend: creating blobs *)



(** ** In-memory backend: what a blob write leaves alone *)

Section Frame.
Context `{Host}.



End Frame.



(** ** In-memory backend: content type as metadata *)



(** ** In-memory backend: failed calls and reads *)

(** X9: the reading operations never change the store, and an operation
    that may write leaves the store as it was whenever it is rejected. *)
Theorem reads_and_rejections_keep_store `{Host} (containerName : string)
    (blobPath : BlobPath.arg) (this : Containers) :
  let kept {A} (outcome : Promise A * Containers) :=
    match outcome with
    | (reject _, this') => this' = this
    | (resolve _, _) => True
    end in
  snd (containerExists containerName this) = this
  /\ snd (getContainerAccessPolicy containerName this) = this
  /\ snd (blobExists blobPath this) = this
  /\ snd (getBlobContentsAsString blobPath this) = this
  /\ snd (getBlobContentType blobPath this) = this
  /\ (forall options, kept (createContainer containerName options this))
  /\ (forall permissions, kept (setContainerAccessPolicy containerName permissions this))
  /\ kept (deleteContainer containerName this)
  /\ (forall options, kept (createBlob blobPath options this))
  /\ (forall blobContents options,
        kept (setBlobContentsFromString blobPath blobContents options this))
  /\ (forall filePath options,
        kept (setBlobContentsFromFile blobPath filePath options this))
  /\ (forall contentType, kept (setBlobContentType blobPath contentType this))
  /\ kept (deleteBlob blobPath this).
Proof.
  cbv zeta.
  pose proof (blobExists_cases blobPath this) as Hexists.
  pose proof (getBlobContentsAsString_cases blobPath this) as Hcontents.
  pose proof (getBlobContentType_cases blobPath this) as Htype.
  pose proof (fun options => createBlob_cases blobPath options this) as HcreateBlob.
  pose proof (fun blobContents options =>
                setBlobContentsFromString_cases blobPath blobContents options this) as HsetString.
  pose proof (fun filePath options =>
                setBlobContentsFromFile_cases blobPath filePath options this) as HsetFile.
  pose proof (fun contentType => setBlobContentType_cases blobPath contentType this) as HsetType.
  pose proof (deleteBlob_cases blobPath this) as Hdelete.
  cbv zeta in *.
  repeat split; intros;
    rewrite ?containerExists_cases, ?getContainerAccessPolicy_cases, ?Hexists, ?Hcontents,
      ?Htype, ?createContainer_cases, ?setContainerAccessPolicy_cases, ?deleteContainer_cases,
      ?HcreateBlob, ?HsetString, ?HsetFile, ?HsetType, ?Hdelete;
    repeat match goal with
           | |- context [if ?b then _ else _] => destruct b
           | |- context [match ?o with Some _ => _ | None => _ end] => destruct o
           | |- context [match ?o with inl _ => _ | inr _ => _ end] => destruct o
           end;
    reflexivity || exact I.
Qed.

(** ** In-memory backend: shape of the store *)

Section Invariant.
Context `{Host}.

Lemma wellFormed_insert (key : string) (container : InMemoryContainer.t) (this : Containers) :
  wellFormed this ->
  InMemoryContainer.name container = key ->
  invalidName key = false ->
  wellFormed (<[key := container]> this).
Proof.
  intros Hwf Hname Hvalid k c Hk.
  destruct (decide (key = k)) as [<- | Hne].
  - rewrite lookup_insert_eq in Hk. injection Hk as <-. now split.
  - rewrite lookup_insert_ne in Hk by exact Hne. now apply Hwf.
Qed.

Lemma wellFormed_setBlobs (key : string) (container : InMemoryContainer.t)
    (blobs' : gmap string InMemoryBlob.t) (this : Containers) :
  wellFormed this ->
  this !! key = Some container ->
  wellFormed (setBlobs key container blobs' this).
Proof.
  intros Hwf Hkey. destruct (Hwf key container Hkey) as [Hname Hvalid].
  now apply wellFormed_insert.
Qed.

End Invariant.

(** X10: the empty store is well formed, and every operation keeps the
    store well formed: each container stays stored under its own [name],
    and every key of the store is a name that passes the validation. *)
Theorem wellFormed_preserved `{Host} (containerName : string) (blobPath : BlobPath.arg)
    (this : Containers) (Hwf : wellFormed this) :
  wellFormed (∅ : Containers)
  /\ (forall options, wellFormed (snd (createContainer containerName options this)))
  /\ (forall permissions,
        wellFormed (snd (setContainerAccessPolicy containerName permissions this)))
  /\ wellFormed (snd (deleteContainer containerName this))
  /\ (forall options, wellFormed (snd (createBlob blobPath options this)))
  /\ (forall blobContents options,
        wellFormed (snd (setBlobContentsFromString blobPath blobContents options this)))
  /\ (forall filePath options,
        wellFormed (snd (setBlobContentsFromFile blobPath filePath options this)))
  /\ (forall contentType, wellFormed (snd (setBlobContentType blobPath contentType this)))
  /\ wellFormed (snd (deleteBlob blobPath this)).
Proof.
  pose proof (fun options => createBlob_cases blobPath options this) as HcreateBlob.
  pose proof (fun blobContents options =>
                setBlobContentsFromString_cases blobPath blobContents options this) as HsetString.
  pose proof (fun filePath options =>
                setBlobContentsFromFile_cases blobPath filePath options this) as HsetFile.
  pose proof (fun contentType => setBlobContentType_cases blobPath contentType this) as HsetType.
  pose proof (deleteBlob_cases blobPath this) as Hdelete.
  cbv zeta in *.
  split; [intros k c Hk; rewrite lookup_empty in Hk; discriminate |].
  split; [intros options | split; [intros permissions | split; [|
    split; [intros options | split; [intros blobContents options |
    split; [intros filePath options | split; [intros contentType |]]]]]]].
  - rewrite createContainer_cases. destruct (invalidName containerName) eqn:Hvalid; [exact Hwf |].
    destruct (this !! containerName); [exact Hwf |].
    now apply wellFormed_insert.
  - rewrite setContainerAccessPolicy_cases.
    destruct (invalidName containerName) eqn:Hvalid; [exact Hwf |].
    destruct (this !! containerName) as [container|] eqn:Hcontainer; [| exact Hwf].
    unfold setAccessPolicy. apply wellFormed_insert; [exact Hwf | | exact Hvalid].
    now destruct (Hwf containerName container Hcontainer).
  - rewrite deleteContainer_cases. destruct (invalidName containerName); [exact Hwf |].
    destruct (this !! containerName); [| exact Hwf].
    cbn [snd]. intros k c Hk. apply lookup_delete_Some in Hk as [_ Hk]. now apply Hwf.
  - rewrite HcreateBlob. destruct (invalidName _); [exact Hwf |].
    destruct (this !! _) as [container|] eqn:Hcontainer; [| exact Hwf].
    destruct (InMemoryContainer.blobs container !! _); [exact Hwf |].
    now apply wellFormed_setBlobs.
  - rewrite HsetString. destruct (invalidName _); [exact Hwf |].
    destruct (this !! _) as [container|] eqn:Hcontainer; [| exact Hwf].
    now apply wellFormed_setBlobs.
  - rewrite HsetFile. destruct (invalidName _); [exact Hwf |].
    destruct (this !! _) as [container|] eqn:Hcontainer; [| exact Hwf].
    destruct (readFileSync filePath); [exact Hwf |].
    now apply wellFormed_setBlobs.
  - rewrite HsetType. destruct (invalidName _); [exact Hwf |].
    destruct (this !! _) as [container|] eqn:Hcontainer; [| exact Hwf].
    destruct (InMemoryContainer.blobs container !! _); [| exact Hwf].
    now apply wellFormed_setBlobs.
  - rewrite Hdelete. destruct (invalidName _); [exact Hwf |].
    destruct (this !! _) as [container|] eqn:Hcontainer; [| exact Hwf].
    destruct (has _ _); [| exact Hwf].
    now apply wellFormed_setBlobs.
Qed.

Lemma wellFormed_preserved_witness :
  @wellFormed exampleHost
    (snd (@createContainer exampleHost "logs" None ∅)).
Proof.
  assert (Hwf : @wellFormed exampleHost ∅)
    by (intros k c Hk; rewrite lookup_empty in Hk; discriminate).
  apply (@wellFormed_preserved exampleHost "logs" (BlobPath.ofString "logs/a.txt") ∅ Hwf).
Defined.

(** ** In-memory backend: contents from a file *)



(** ** In-memory backend: URLs *)

(** X12: the URL of a blob given as a string with a separator is the fake
    account URL followed by that string; for a [BlobPath] it is the
    account URL followed by the path's string form. No name is validated
    and nothing can fail. *)
Theorem getBlobURL_of_path (blobPath : string) (Hfound : JS.indexOf blobPath "/" <> -1) :
  InMemoryBlobStorage.getBlobURL (BlobPath.ofString blobPath)
  = "https://fake.storage.com/" +:+ blobPath
  /\ forall path : BlobPath.t,
       InMemoryBlobStorage.getBlobURL (BlobPath.ofBlobPath path)
       = "https://fake.storage.com/" +:+ BlobPath.toString path.
Proof.
  assert (Hobject : forall path : BlobPath.t,
            InMemoryBlobStorage.getBlobURL (BlobPath.ofBlobPath path)
            = "https://fake.storage.com/" +:+ BlobPath.toString path).
  { intros path. unfold InMemoryBlobStorage.getBlobURL, InMemoryBlobStorage.getContainerURL,
      InMemoryBlobStorage.getURL, BlobPath.toString. cbn [BlobPath.parse].
    now rewrite <- append_assoc. }
  split; [| exact Hobject].
  rewrite <- (toString_parse blobPath Hfound) at 2.
  rewrite <- Hobject. reflexivity.
Qed.

Lemma getBlobURL_of_path_witness :
  InMemoryBlobStorage.getBlobURL (BlobPath.ofString "logs/2020/a.txt")
  = "https://fake.storage.com/logs/2020/a.txt".
Proof.
  assert (Hfound : JS.indexOf "logs/2020/a.txt" "/" <> -1) by (vm_compute; discriminate).
  apply (getBlobURL_of_path "logs/2020/a.txt" Hfound).
Defined.

(** ** Navigation handles *)

(** X13: a prefix handle appends the given name to its own blob name
    without a separator, so that [getPrefix] composes: the prefix of a
    prefix is the prefix at the concatenated path, and so is its blob; the
    container of the handle never changes. *)
Theorem prefix_handles_compose (this : BlobStoragePrefix) (path blobName : string) :
  BlobStoragePrefix_getPrefix (BlobStoragePrefix_getPrefix this path) blobName
  = BlobStoragePrefix_getPrefix this (path +:+ blobName)
  /\ BlobStoragePrefix_getBlob (BlobStoragePrefix_getPrefix this path) blobName
     = BlobStoragePrefix_getBlob this (path +:+ blobName)
  /\ blob_path (BlobStoragePrefix_getBlob this blobName)
     = BlobPath.new (BlobPath.containerName (prefix_path this))
         (BlobPath.blobName (prefix_path this) +:+ blobName)
  /\ BlobPath.toString (blob_path (BlobStoragePrefix_getBlob this blobName))
     = BlobPath.toString (prefix_path this) +:+ blobName.
Proof.
  unfold BlobStoragePrefix_getPrefix, BlobStoragePrefix_getBlob, BlobStoragePrefix_getContainer,
    BlobStorageContainer_getPrefix, BlobStorageContainer_getBlob, BlobStorage_getPrefix,
    BlobStorage_getBlob, BlobStorage_getContainer, BlobPath.toString.
  cbn [pathOf prefix_path blob_path container_name BlobPath.containerName BlobPath.blobName].
  rewrite <- !append_assoc. repeat split.
Qed.

(** X14: when the container name holds no separator, the blob handle and
    the prefix handle obtained from the string [containerName/name] are
    the ones obtained from the container handle with [name]. *)
Theorem handle_of_string_path (containerName name : string)
    (Hfirst : JS.indexOf containerName "/" = -1) :
  BlobStorage_getBlob (BlobPath.ofString (containerName +:+ "/" +:+ name))
  = BlobStorageContainer_getBlob (BlobStorage_getContainer containerName) name
  /\ BlobStorage_getPrefix (BlobPath.ofString (containerName +:+ "/" +:+ name))
     = BlobStorageContainer_getPrefix (BlobStorage_getContainer containerName) name.
Proof.
  unfold BlobStorage_getBlob, BlobStorage_getPrefix, BlobStorageContainer_getBlob,
    BlobStorageContainer_getPrefix, BlobStorage_getContainer.
  cbn [pathOf container_name]. now rewrite parse_split.
Qed.

Lemma handle_of_string_path_witness :
  BlobStorage_getBlob (BlobPath.ofString "logs/2020/a.txt")
  = BlobStorageContainer_getBlob (BlobStorage_getContainer "logs") "2020/a.txt".
Proof.
  assert (Hfirst : JS.indexOf "logs" "/" = -1) by reflexivity.
  apply (handle_of_string_path "logs" "2020/a.txt" Hfirst).
Defined.



(** ** Cloud backend: access policy *)

(** X16: the cloud backend never sends the value [private] to the service:
    it sends no access value for it. With a service that reads back the
    access value it was sent, [setContainerAccessPolicy] followed by
    [getContainerAccessPolicy] resolves to the policy that was set, the
    private one too. *)
Theorem cloud_accessPolicy_roundtrip {Service : Type} `{AzureBlobStorage.AccountSDK Service}
    (containerName : string) (permissions : ContainerAccessPolicy)
    (service service1 service2 : Service)
    (Hset : AzureBlobStorage.ContainerURL_setAccessPolicy containerName
              (AzureBlobStorage.getAzureContainerAccessPermissions (Some permissions)) service
            = (resolve tt, service1))
    (Hget : AzureBlobStorage.ContainerURL_getAccessPolicy containerName service1
            = (resolve (AzureBlobStorage.getAzureContainerAccessPermissions (Some permissions)),
               service2)) :
  AzureBlobStorage.getAzureContainerAccessPermissions (Some permissions) <> Some Private
  /\ AzureBlobStorage.setContainerAccessPolicy containerName permissions service
     = (resolve tt, service1)
  /\ AzureBlobStorage.getContainerAccessPolicy containerName service1
     = (resolve permissions, service2).
Proof.
  split; [now destruct permissions |].
  unfold AzureBlobStorage.setContainerAccessPolicy, AzureBlobStorage.getContainerAccessPolicy,
    then_, Promise_resolve.
  rewrite Hset, Hget. split; [reflexivity |]. now destruct permissions.
Qed.

Lemma cloud_accessPolicy_roundtrip_witness :
  @AzureBlobStorage.setContainerAccessPolicy _ accountSDK "logs" Private (Some Blob)
  = (resolve tt, None)
  /\ @AzureBlobStorage.getContainerAccessPolicy _ accountSDK "logs" None
     = (resolve Private, None).
Proof.
  apply (@cloud_accessPolicy_roundtrip _ accountSDK "logs" Private (Some Blob) None None
           eq_refl eq_refl).
Defined.

(** ** Cloud backend: listing containers *)

Section Listing.
Context {Service : Type} `{AzureBlobStorage.AccountSDK Service}.
Context (map : list string -> (string -> BlobStorageContainer) -> list BlobStorageContainer).

Lemma listContainers_while_segments (next : string) (service service' : Service)
    (pages : list (list string)) :
  AzureBlobStorage.segments (Some next) service pages service' ->
  forall (fuel : nat) (result : list BlobStorageContainer)
         (previous : AzureBlobStorage.ListContainersSegmentResponse.t),
    AzureBlobStorage.continuation
      (AzureBlobStorage.ListContainersSegmentResponse.nextMarker previous) = Some next ->
    (length pages <= fuel)%nat ->
    AzureBlobStorage.listContainers_while map fuel result previous service
    = Some (resolve
              (result ++ concat ((fun items => map items (fun name => {| container_name := name |}))
                                   <$> pages)),
            service').
Proof.
  remember (Some next) as marker eqn:Hmarker.
  intros Hsegments. revert next Hmarker.
  induction Hsegments as [marker service response service' Hsegment Hend
                         | marker service response service1 next' rest service' Hsegment Hnext
                             Hrest IH];
    intros next -> fuel result previous Hprevious Hfuel.
  - destruct fuel as [|fuel]; [cbn in Hfuel; lia |].
    cbn [AzureBlobStorage.listContainers_while]. rewrite Hprevious, Hsegment.
    destruct fuel; cbn [AzureBlobStorage.listContainers_while]; rewrite Hend;
      cbn; now rewrite app_nil_r.
  - destruct fuel as [|fuel]; [cbn in Hfuel; lia |].
    cbn [AzureBlobStorage.listContainers_while]. rewrite Hprevious, Hsegment.
    rewrite (IH next' eq_refl fuel _ response Hnext) by (cbn in Hfuel; lia).
    cbn. now rewrite <- app_assoc.
Qed.

End Listing.

(** X17: when the service hands out its containers in segments, the last
    of which has no marker (or an empty one), [listContainers] follows the
    markers and resolves, as soon as the loop is given as many rounds as
    there are further segments, to the handles of all segments in order;
    the first request carries no marker. *)
Theorem listContainers_all_segments {Service : Type} `{AzureBlobStorage.AccountSDK Service}
    (map : list string -> (string -> BlobStorageContainer) -> list BlobStorageContainer)
    (service service' : Service) (pages : list (list string)) (fuel : nat)
    (Hsegments : AzureBlobStorage.segments None service pages service')
    (Hfuel : (length pages <= Datatypes.S fuel)%nat) :
  AzureBlobStorage.listContainers map fuel service
  = Some (resolve
            (concat ((fun items => map items (fun name => {| container_name := name |}))
                       <$> pages)),
          service').
Proof.
  unfold AzureBlobStorage.listContainers.
  inversion Hsegments as [marker s response s' Hsegment Hend
                         | marker s response service1 next rest s' Hsegment Hnext Hrest];
    subst; rewrite Hsegment.
  - destruct fuel; cbn [AzureBlobStorage.listContainers_while]; rewrite Hend;
      cbn; now rewrite app_nil_r.
  - rewrite (listContainers_while_segments map next service1 service' rest Hrest
               fuel _ response Hnext) by (cbn in Hfuel; lia).
    reflexivity.
Qed.

Lemma listContainers_all_segments_witness :
  @AzureBlobStorage.listContainers _ accountSDK (fun items conversion => conversion <$> items)
    1 None
  = Some (resolve [ {| container_name := "a" |}; {| container_name := "b" |};
                    {| container_name := "c" |} ], None).
Proof.
  assert (Hsegments : @AzureBlobStorage.segments _ accountSDK None None [["a"; "b"]; ["c"]] None).
  { eapply (@AzureBlobStorage.segments_next _ accountSDK None None
              {| AzureBlobStorage.ListContainersSegmentResponse.containerItems := ["a"; "b"];
                 AzureBlobStorage.ListContainersSegmentResponse.nextMarker := Some "m1" |});
      [reflexivity | reflexivity |].
    apply (@AzureBlobStorage.segments_last _ accountSDK (Some "m1") None
             {| AzureBlobStorage.ListContainersSegmentResponse.containerItems := ["c"];
                AzureBlobStorage.ListContainersSegmentResponse.nextMarker := Some "" |});
      reflexivity. }
  assert (Hfuel : (length [["a"; "b"]; ["c"]] <= 2)%nat) by (cbn; lia).
  exact (@listContainers_all_segments _ accountSDK (fun items conversion => conversion <$> items)
           None None [["a"; "b"]; ["c"]] 1 Hsegments Hfuel).
Defined.

(** ** Cloud backend: other failures of a content type request *)

(** X18: when the request for the properties of the blob fails with an
    error whose status code is not 404, [getBlobContentType] is rejected
    with that very error and sends no request about the container: the
    service is left as the first request left it. When the status code is
    404 and the request about the container fails with an error whose
    message does not name [ContainerNotFound], that error is passed on. *)
Theorem cloud_getBlobContentType_other_errors {Service : Type}
    `{AzureBlobStorage.StorageSDK Service} (blobPath : BlobPath.arg)
    (service service1 : Service) (error : Error)
    (Hblob : AzureBlobStorage.BlockBlobURL_getProperties (BlobPath.parse blobPath) service
             = (reject error, service1)) :
  (statusCode error <> Some 404 ->
   AzureBlobStorage.getBlobContentType blobPath service = (reject error, service1))
  /\ (forall error' service2,
        statusCode error = Some 404 ->
        AzureBlobStorage.ContainerURL_getProperties
          (BlobPath.containerName (BlobPath.parse blobPath)) service1
        = (reject error', service2) ->
        JS.indexOf (message error') "ContainerNotFound" = -1 ->
        AzureBlobStorage.getBlobContentType blobPath service = (reject error', service2)).
Proof.
  unfold AzureBlobStorage.getBlobContentType, AzureBlobStorage.containerExists,
    catch_, then_, settled, Promise_resolve, Promise_reject.
  rewrite Hblob. split.
  - intros Hcode. now rewrite bool_decide_eq_false_2 by exact Hcode.
  - intros error' service2 Hcode Hcontainer Hmessage.
    rewrite bool_decide_eq_true_2 by exact Hcode. cbn [negb].
    rewrite Hcontainer. unfold resolveIfErrorMessageContains. now rewrite Hmessage.
Qed.

Lemma cloud_getBlobContentType_other_errors_witness :
  @AzureBlobStorage.getBlobContentType _ refusingSDK (BlobPath.ofString "logs/a.txt") tt
  = (reject forbidden, tt).
Proof.
  destruct (@cloud_getBlobContentType_other_errors _ refusingSDK
              (BlobPath.ofString "logs/a.txt") tt tt forbidden eq_refl) as [Hother _].
  apply Hother. intros Hcode. cbn in Hcode. discriminate Hcode.
Defined.

(** ** In-memory backend: listing containers *)

Lemma fold_left_push {A B} (f : A -> B) (l : list A) (result : list B) :
  fold_left (fun result x => result ++ [f x]) l result = result ++ (f <$> l).
Proof.
  revert result. induction l as [|x l IH]; intros result; cbn.
  - now rewrite app_nil_r.
  - now rewrite IH, <- app_assoc.
Qed.

(** X19: on a well-formed store, when [Object.keys] lists exactly the keys
    of the store, [listContainers] resolves to one handle per key, in the
    order of [Object.keys], without changing the store; every handle it
    returns is one of an existing container, and every container that is
    stored has its handle in the list. *)
Theorem listContainers_handles `{Host} (Object_keys : Containers -> list string)
    (this : Containers)
    (Hwf : wellFormed this)
    (Hkeys : forall key, key ∈ Object_keys this <-> is_Some (this !! key)) :
  InMemoryBlobStorage_listContainers Object_keys this
  = (resolve (BlobStorage_getContainer <$> Object_keys this), this)
  /\ (forall handle,
        handle ∈ BlobStorage_getContainer <$> Object_keys this ->
        BlobStorageContainer_exists handle this = (resolve true, this))
  /\ (forall containerName container,
        this !! containerName = Some container ->
        BlobStorage_getContainer containerName ∈ BlobStorage_getContainer <$> Object_keys this).
Proof.
  split; [| split].
  - unfold InMemoryBlobStorage_listContainers. now rewrite fold_left_push.
  - intros handle Hhandle. apply list_elem_of_fmap in Hhandle as (key & -> & Hkey).
    apply Hkeys in Hkey. destruct Hkey as [container Hcontainer].
    unfold BlobStorageContainer_exists, BlobStorage_getContainer.
    cbn [container_name BlobStorage.containerExists InMemoryBlobStorage_BlobStorage].
    apply containerExists_true. split; [| eauto].
    now destruct (Hwf key container Hcontainer).
  - intros containerName container Hcontainer.
    apply list_elem_of_fmap. exists containerName. split; [reflexivity |].
    apply Hkeys. eauto.
Qed.

Lemma listContainers_handles_witness :
  InMemoryBlobStorage_listContainers (fun this => (map_to_list this).*1) storeWithLogs
  = (resolve [ BlobStorage_getContainer "logs" ], storeWithLogs).
Proof.
  assert (Hwf : @wellFormed exampleHost storeWithLogs).
  { intros key container Hkey. unfold storeWithLogs in Hkey.
    apply lookup_insert_Some in Hkey as [[<- <-] | [_ Hkey]].
    - split; [reflexivity | vm_compute; reflexivity].
    - rewrite lookup_empty in Hkey. discriminate. }
  assert (Hkeys : forall key,
            key ∈ (map_to_list storeWithLogs).*1 <-> is_Some (storeWithLogs !! key)).
  { intros key. rewrite list_elem_of_fmap. split.
    - intros ([k v] & -> & Hin). apply elem_of_map_to_list in Hin. cbn. eauto.
    - intros [v Hv]. exists (key, v). split; [reflexivity |].
      now apply elem_of_map_to_list. }
  destruct (@listContainers_handles exampleHost (fun this => (map_to_list this).*1)
              storeWithLogs Hwf Hkeys) as [Hlist _].
  rewrite Hlist. vm_compute. reflexivity.
Defined.

(** ** Both backends: deleting a blob *)



(** ** Both backends: content type of a missing blob *)


